(** * Availability policies of [oscar.apps.partner.availability]

    A shallow embedding of the availability-policy classes ([Base],
    [Unavailable], [Available], [StockRequired], [DelegateToStockRecord])
    and the properties the specification states about them.

    Python integers are unbounded, so they are [Z]; strings are
    [String.string]; a reference that may be [None] is an [option]; a call
    that may raise returns a [result]; methods run in a small state and
    error monad whose state is the receiver object. *)

From Stdlib Require Import ZArith String Ascii List Bool Lia DecimalString.
From Stdlib Require DecimalPos DecimalZ.
Import ListNotations.

#[local] Open Scope string_scope.
#[local] Open Scope Z_scope.

(** ** The fragment of the Python runtime the module relies on *)

(** Exceptions.  [AttributeError owner attr] is raised by [owner.attr] when
    objects of type [owner] have no attribute [attr]; the other three come
    from the [%] string formatting operator.  [NotModelled] is not a Python
    exception: it marks format syntax outside the fragment embedded here. *)
Inductive exn : Type :=
| AttributeError (owner attr : string)
| KeyError (key : string)
| TypeError (msg : string)
| ValueError (msg : string)
| NotModelled (what : string).

Inductive result (A : Type) : Type :=
| Returns (a : A)
| Raises (e : exn).

Arguments Returns {A} a.
Arguments Raises {A} e.

Definition result_map {A B : Type} (f : A -> B) (r : result A) : result B :=
  match r with
  | Returns a => Returns (f a)
  | Raises e => Raises e
  end.

(** [str(n)] and [%d] applied to an integer: the decimal numeral, with a
    leading minus sign for negative numbers. *)
Definition str_of_int (n : Z) : string :=
  NilZero.string_of_int (Z.to_int n).

(** *** [format % values]

    The right operand is either a dict (keys are strings, the values that
    occur in this module are integers) or a single integer. *)
Inductive format_values : Type :=
| Mapping (d : list (string * Z))
| Single (v : Z).

Fixpoint dict_get (d : list (string * Z)) (key : string) : option Z :=
  match d with
  | [] => None
  | (k, v) :: d' => if String.eqb k key then Some v else dict_get d' key
  end.

(** The scanner reads the format one character at a time.  [used] records
    whether the single positional value has been consumed. *)
Inductive scan_state : Type :=
| InText
| AfterPercent
| InKey (depth : nat) (rev_key : list ascii)
| AfterKey (key : string).

Definition string_of_rev (cs : list ascii) : string :=
  string_of_list_ascii (rev cs).

Definition is_int_conversion (c : ascii) : bool :=
  (Ascii.eqb c "d" || Ascii.eqb c "i" || Ascii.eqb c "u" || Ascii.eqb c "s")%bool.

(** The value a key-less conversion consumes. *)
Definition next_positional (values : format_values) (used : bool) : result Z :=
  match values with
  | Mapping _ => Raises (TypeError "a number is required, not dict")
  | Single v =>
      if used then Raises (TypeError "not enough arguments for format string")
      else Returns v
  end.

(** The value [%(key)] selects. *)
Definition keyed (values : format_values) (key : string) : result Z :=
  match values with
  | Mapping d =>
      match dict_get d key with
      | Some v => Returns v
      | None => Raises (KeyError key)
      end
  | Single _ => Raises (TypeError "format requires a mapping")
  end.

Fixpoint scan (st : scan_state) (values : format_values) (used : bool)
    (fmt : string) : result string :=
  match fmt with
  | EmptyString =>
      match st with
      | InText =>
          match values, used with
          | Single _, false =>
              Raises (TypeError
                "not all arguments converted during string formatting")
          | _, _ => Returns EmptyString
          end
      | AfterPercent | AfterKey _ => Raises (ValueError "incomplete format")
      | InKey _ _ => Raises (ValueError "incomplete format key")
      end
  | String c rest =>
      match st with
      | InText =>
          if Ascii.eqb c "%" then scan AfterPercent values used rest
          else result_map (String c) (scan InText values used rest)
      | AfterPercent =>
          if Ascii.eqb c "%" then
            result_map (String "%") (scan InText values used rest)
          else if Ascii.eqb c "(" then scan (InKey 0 []) values used rest
          else if is_int_conversion c then
            match next_positional values used with
            | Returns v =>
                result_map (append (str_of_int v))
                           (scan InText values true rest)
            | Raises e => Raises e
            end
          else Raises (NotModelled "conversion specifier")
      | InKey depth rev_key =>
          if Ascii.eqb c ")" then
            match depth with
            | O => scan (AfterKey (string_of_rev rev_key)) values used rest
            | S depth' => scan (InKey depth' (c :: rev_key)) values used rest
            end
          else if Ascii.eqb c "(" then
            scan (InKey (S depth) (c :: rev_key)) values used rest
          else scan (InKey depth (c :: rev_key)) values used rest
      | AfterKey key =>
          match keyed values key with
          | Returns v =>
              if Ascii.eqb c "%" then
                result_map (String "%") (scan InText values used rest)
              else if is_int_conversion c then
                result_map (append (str_of_int v))
                           (scan InText values used rest)
              else Raises (NotModelled "conversion specifier")
          | Raises e => Raises e
          end
      end
  end.

(** [fmt % values]. *)
Definition percent (fmt : string) (values : format_values) : result string :=
  scan InText values false fmt.

(** ** Translation

    [_] is Django's [ugettext_lazy]: it maps a message id to the text of the
    active catalogue.  The classes are embedded over an arbitrary catalogue;
    [source_language] is the one with no translation active, where every
    message is its own id. *)
Definition Catalogue : Type := string -> string.

Definition source_language : Catalogue := fun msgid => msgid.

(** ** Collaborators *)

(** Modelled from the spec: the user a purchase is checked for.  Its class
    is not part of this module, which only hands the reference on to the
    stock record. *)
Record User : Type := { user_id : Z }.

(** Modelled from the spec: the product class, of which the module reads
    the stock-tracking flag. *)
Record ProductClass : Type := { track_stock : bool }.

(** Modelled from the spec: the product collaborator, of which the module
    calls [get_product_class()]. *)
Record Product : Type := { get_product_class : ProductClass }.

(** Modelled from the spec: the external stock record.  It exposes
    [net_stock_level] and, for the delegate variant, its own
    [is_available_to_buy], [is_purchase_permitted(user, quantity, product)],
    [availability_code], [availability], [lead_time] and [dispatch_date].
    Durations and dates are counted in days. *)
Module StockRecord.
Record t : Type := {
  net_stock_level : Z;
  is_available_to_buy : bool;
  is_purchase_permitted :
    option User -> Z -> option Product -> result (bool * string);
  availability_code : string;
  availability : string;
  lead_time : option Z;
  dispatch_date : option Z
}.
End StockRecord.

(** ** Policy objects

    An instance is its class together with the attributes [__init__]
    stores: [StockRequired(stockrecord=None)] and
    [DelegateToStockRecord(product, stockrecord=None, user=None)]. *)
Inductive Policy : Type :=
| Base
| Unavailable
| Available
| StockRequired (stockrecord : option StockRecord.t)
| DelegateToStockRecord (product : option Product)
    (stockrecord : option StockRecord.t) (user : option User).

Definition class_name (self : Policy) : string :=
  match self with
  | Base => "Base"
  | Unavailable => "Unavailable"
  | Available => "Available"
  | StockRequired _ => "StockRequired"
  | DelegateToStockRecord _ _ _ => "DelegateToStockRecord"
  end.

(** ** Methods as state-passing computations

    A method receives the object it is called on and hands it back together
    with what it returned or raised, so that a write to the receiver or to
    the stock record it references would show in the final state. *)
Definition M (A : Type) : Type := Policy -> result A * Policy.

Definition ret {A : Type} (a : A) : M A := fun self => (Returns a, self).

Definition raise {A : Type} (e : exn) : M A := fun self => (Raises e, self).

Definition bind {A B : Type} (m : M A) (k : A -> M B) : M B :=
  fun self =>
    match m self with
    | (Returns a, self') => k a self'
    | (Raises e, self') => (Raises e, self')
    end.

Definition lift {A : Type} (r : result A) : M A := fun self => (r, self).

Declare Scope py_scope.
Delimit Scope py_scope with py.
Notation "x <- m ;; k" := (bind m (fun x => k))
  (at level 100, m at next level, right associativity) : py_scope.
#[local] Open Scope py_scope.

(** The value a call returns or the exception it raises, and the state it
    leaves behind. *)
Definition eval {A : Type} (m : M A) (self : Policy) : result A := fst (m self).
Definition exec {A : Type} (m : M A) (self : Policy) : Policy := snd (m self).

(** [self.stockrecord], [self.product] and [self.user]. *)
Definition self_stockrecord : M (option StockRecord.t) :=
  fun self =>
    match self with
    | StockRequired stockrecord => ret stockrecord self
    | DelegateToStockRecord _ stockrecord _ => ret stockrecord self
    | _ => raise (AttributeError (class_name self) "stockrecord") self
    end.

Definition self_product : M (option Product) :=
  fun self =>
    match self with
    | DelegateToStockRecord product _ _ => ret product self
    | _ => raise (AttributeError (class_name self) "product") self
    end.

Definition self_user : M (option User) :=
  fun self =>
    match self with
    | DelegateToStockRecord _ _ user => ret user self
    | _ => raise (AttributeError (class_name self) "user") self
    end.

(** [obj.attr] on a reference that may be [None]. *)
Definition getattr {O A : Type} (obj : option O) (attr : string)
    (field : O -> A) : M A :=
  match obj with
  | Some o => ret (field o)
  | None => raise (AttributeError "NoneType" attr)
  end.

(** ** The classes *)

Module Base.
Section Methods.
Variable ugettext_lazy : Catalogue.
(* [self.is_purchase_permitted], looked up on the instance. *)
Variable self_is_purchase_permitted : Z -> M (bool * string).

Definition code : string := "".
Definition message : string := "".
Definition lead_time : option Z := None.
Definition dispatch_date : option Z := None.

Definition is_available_to_buy : M bool :=
  (* We test a purchase of a single item *)
  r <- self_is_purchase_permitted 1 ;;
  ret (fst r).

Definition is_purchase_permitted (quantity : Z) : M (bool * string) :=
  ret (false, ugettext_lazy "Unavailable").
End Methods.
End Base.

Module Unavailable.
Section Methods.
Variable ugettext_lazy : Catalogue.

Definition code : string := "unavailable".
Definition message : string := ugettext_lazy "Unavailable".
End Methods.
End Unavailable.

Module Available.
Section Methods.
Variable ugettext_lazy : Catalogue.

Definition code : string := "available".
Definition message : string := ugettext_lazy "Available".

Definition is_purchase_permitted (quantity : Z) : M (bool * string) :=
  ret (true, "").
End Methods.
End Available.

Module StockRequired.
Section Methods.
Variable ugettext_lazy : Catalogue.

Definition CODE_IN_STOCK : string := "instock".
Definition CODE_OUT_OF_STOCK : string := "outofstock".

Definition is_purchase_permitted (quantity : Z) : M (bool * string) :=
  stockrecord <- self_stockrecord ;;
  num_in_stock <-
    getattr stockrecord "net_stock_level" StockRecord.net_stock_level ;;
  if num_in_stock =? 0 then
    ret (false, ugettext_lazy "No stock available")
  else if quantity >? num_in_stock then
    msg <- lift (percent (ugettext_lazy "A maximum of %(max)d can be bought")
                         (Mapping [("max", num_in_stock)])) ;;
    ret (false, msg)
  else ret (true, "").

Definition code : M string :=
  stockrecord <- self_stockrecord ;;
  net_stock_level <-
    getattr stockrecord "net_stock_level" StockRecord.net_stock_level ;;
  if net_stock_level >? 0 then ret CODE_IN_STOCK
  else ret CODE_OUT_OF_STOCK.

Definition message : M string :=
  stockrecord <- self_stockrecord ;;
  net_stock_level <-
    getattr stockrecord "net_stock_level" StockRecord.net_stock_level ;;
  if net_stock_level >? 0 then
    stockrecord' <- self_stockrecord ;;
    available <-
      getattr stockrecord' "net_stock_level" StockRecord.net_stock_level ;;
    lift (percent (ugettext_lazy "In stock (%d available)")
                  (Single available))
  else ret (ugettext_lazy "Not available").
End Methods.
End StockRequired.

Module DelegateToStockRecord.
Definition is_available_to_buy : M bool :=
  stockrecord <- self_stockrecord ;;
  match stockrecord with
  | None => ret false
  | Some _ =>
      product <- self_product ;;
      get_product_class <-
        getattr product "get_product_class" get_product_class ;;
      if negb (track_stock get_product_class) then ret true
      else
        stockrecord' <- self_stockrecord ;;
        getattr stockrecord' "is_available_to_buy"
                StockRecord.is_available_to_buy
  end.

(* The callee is looked up before the arguments are evaluated. *)
Definition is_purchase_permitted (quantity : Z) : M (bool * string) :=
  stockrecord <- self_stockrecord ;;
  method <-
    getattr stockrecord "is_purchase_permitted"
            StockRecord.is_purchase_permitted ;;
  user <- self_user ;;
  product <- self_product ;;
  lift (method user quantity product).

Definition code : M string :=
  stockrecord <- self_stockrecord ;;
  getattr stockrecord "availability_code" StockRecord.availability_code.

Definition message : M string :=
  stockrecord <- self_stockrecord ;;
  getattr stockrecord "availability" StockRecord.availability.

Definition lead_time : M (option Z) :=
  stockrecord <- self_stockrecord ;;
  getattr stockrecord "lead_time" StockRecord.lead_time.

Definition dispatch_date : M (option Z) :=
  stockrecord <- self_stockrecord ;;
  getattr stockrecord "dispatch_date" StockRecord.dispatch_date.
End DelegateToStockRecord.

(** ** Attribute and method lookup on an instance

    Each name resolves to the definition of the instance's own class if it
    has one and to the one inherited from [Base] otherwise. *)
Section Lookup.
Variable ugettext_lazy : Catalogue.

Definition is_purchase_permitted (quantity : Z) : M (bool * string) :=
  fun self =>
    match self with
    | Base | Unavailable =>
        Base.is_purchase_permitted ugettext_lazy quantity self
    | Available => Available.is_purchase_permitted quantity self
    | StockRequired _ =>
        StockRequired.is_purchase_permitted ugettext_lazy quantity self
    | DelegateToStockRecord _ _ _ =>
        DelegateToStockRecord.is_purchase_permitted quantity self
    end.

Definition is_available_to_buy : M bool :=
  fun self =>
    match self with
    | DelegateToStockRecord _ _ _ =>
        DelegateToStockRecord.is_available_to_buy self
    | _ => Base.is_available_to_buy is_purchase_permitted self
    end.

Definition code : M string :=
  fun self =>
    match self with
    | Base => ret Base.code self
    | Unavailable => ret Unavailable.code self
    | Available => ret Available.code self
    | StockRequired _ => StockRequired.code self
    | DelegateToStockRecord _ _ _ => DelegateToStockRecord.code self
    end.

Definition message : M string :=
  fun self =>
    match self with
    | Base => ret Base.message self
    | Unavailable => ret (Unavailable.message ugettext_lazy) self
    | Available => ret (Available.message ugettext_lazy) self
    | StockRequired _ => StockRequired.message ugettext_lazy self
    | DelegateToStockRecord _ _ _ => DelegateToStockRecord.message self
    end.

Definition lead_time : M (option Z) :=
  fun self =>
    match self with
    | DelegateToStockRecord _ _ _ => DelegateToStockRecord.lead_time self
    | _ => ret Base.lead_time self
    end.

Definition dispatch_date : M (option Z) :=
  fun self =>
    match self with
    | DelegateToStockRecord _ _ _ =>
        DelegateToStockRecord.dispatch_date self
    | _ => ret Base.dispatch_date self
    end.
End Lookup.

(** ** Sample collaborators *)

(** A stock record holding [n] items that sells up to what it holds. *)
Definition stock (n : Z) : StockRecord.t :=
  {| StockRecord.net_stock_level := n;
     StockRecord.is_available_to_buy := 0 <? n;
     StockRecord.is_purchase_permitted :=
       fun _ quantity _ => Returns (quantity <=? n, "");
     StockRecord.availability_code := "instock";
     StockRecord.availability := "In stock";
     StockRecord.lead_time := None;
     StockRecord.dispatch_date := None |}.

(** A product whose class does not track stock, and a stock record that
    refuses every purchase. *)
Definition untracked_product : Product :=
  {| get_product_class := {| track_stock := false |} |}.

Definition tracked_product : Product :=
  {| get_product_class := {| track_stock := true |} |}.

Definition refusing : StockRecord.t :=
  {| StockRecord.net_stock_level := 0;
     StockRecord.is_available_to_buy := false;
     StockRecord.is_purchase_permitted :=
       fun _ _ _ => Returns (false, "Unavailable");
     StockRecord.availability_code := "outofstock";
     StockRecord.availability := "Not available";
     StockRecord.lead_time := None;
     StockRecord.dispatch_date := None |}.

Definition untracked_delegate : Policy :=
  DelegateToStockRecord (Some untracked_product) (Some refusing) None.

(** The classes that do not override [is_available_to_buy]. *)
Definition inherits_is_available_to_buy (self : Policy) : bool :=
  match self with
  | DelegateToStockRecord _ _ _ => false
  | _ => true
  end.

(** ** Read-only computations *)

(** The state after the call is the state before it. *)
Definition read_only {A : Type} (m : M A) : Prop :=
  forall self, exec m self = self.

(** Calling twice in a row gives the same answer twice. *)
Definition repeatable {A : Type} (m : M A) : Prop :=
  forall self, eval m (exec m self) = eval m self.

(** ** Catalogues without placeholders *)

(** Whether a text contains the [%] character. *)
Fixpoint has_percent (s : string) : bool :=
  match s with
  | EmptyString => false
  | String c s' => (Ascii.eqb c "%" || has_percent s')%bool
  end.

(** A catalogue whose texts carry no placeholder at all. *)
Definition terse : Catalogue := fun _ => "n/a".

(** ** The spec's listed cases, by evaluation *)

Example percent_mapping :
  percent "A maximum of %(max)d can be bought" (Mapping [("max", 5)])
  = Returns "A maximum of 5 can be bought".
Proof. reflexivity. Qed.

Example percent_single :
  percent "In stock (%d available)" (Single 12)
  = Returns "In stock (12 available)".
Proof. reflexivity. Qed.

Example percent_missing_key :
  percent "%(max)d left" (Mapping [("min", 1)]) = Raises (KeyError "max").
Proof. reflexivity. Qed.

Example out_of_stock_single :
  eval (is_purchase_permitted source_language 1) (StockRequired (Some (stock 0)))
  = Returns (false, "No stock available").
Proof. reflexivity. Qed.

Example five_of_five :
  eval (is_purchase_permitted source_language 5) (StockRequired (Some (stock 5)))
  = Returns (true, "").
Proof. reflexivity. Qed.

Example six_of_five :
  eval (is_purchase_permitted source_language 6) (StockRequired (Some (stock 5)))
  = Returns (false, "A maximum of 5 can be bought").
Proof. reflexivity. Qed.

Example in_stock_message :
  eval (message source_language) (StockRequired (Some (stock 5)))
  = Returns "In stock (5 available)".
Proof. reflexivity. Qed.

Example delegate_without_stockrecord :
  eval (is_available_to_buy source_language)
       (DelegateToStockRecord (Some tracked_product) None None)
  = Returns false.
Proof. reflexivity. Qed.

Example delegate_without_product :
  eval (is_available_to_buy source_language)
       (DelegateToStockRecord None (Some (stock 3)) None)
  = Raises (AttributeError "NoneType" "get_product_class").
Proof. reflexivity. Qed.

(** ** Running the methods *)

(** The two formats of the module, instantiated. *)
Lemma percent_maximum (n : Z) :
  percent "A maximum of %(max)d can be bought" (Mapping [("max", n)])
  = Returns ("A maximum of " ++ str_of_int n ++ " can be bought")%string.
Proof. reflexivity. Qed.

Lemma percent_in_stock (n : Z) :
  percent "In stock (%d available)" (Single n)
  = Returns ("In stock (" ++ str_of_int n ++ " available)")%string.
Proof. reflexivity. Qed.

(** What [is_purchase_permitted] does on a [StockRequired] instance with a
    stock record, in any catalogue. *)
Lemma StockRequired_is_purchase_permitted_run
    (tr : Catalogue) (quantity : Z) (sr : StockRecord.t) :
  is_purchase_permitted tr quantity (StockRequired (Some sr))
  = (if StockRecord.net_stock_level sr =? 0 then
       Returns (false, tr "No stock available")
     else if quantity >? StockRecord.net_stock_level sr then
       result_map (pair false)
         (percent (tr "A maximum of %(max)d can be bought")
                  (Mapping [("max", StockRecord.net_stock_level sr)]))
     else Returns (true, ""),
     StockRequired (Some sr)).
Proof.
  unfold is_purchase_permitted, StockRequired.is_purchase_permitted,
    bind, self_stockrecord, getattr, ret, lift.
  destruct (StockRecord.net_stock_level sr =? 0); [reflexivity |].
  destruct (quantity >? StockRecord.net_stock_level sr); [| reflexivity].
  destruct (percent _ _); reflexivity.
Qed.

Lemma StockRequired_code_run (sr : StockRecord.t) :
  code (StockRequired (Some sr))
  = (Returns (if StockRecord.net_stock_level sr >? 0
              then StockRequired.CODE_IN_STOCK
              else StockRequired.CODE_OUT_OF_STOCK),
     StockRequired (Some sr)).
Proof.
  unfold code, StockRequired.code, bind, self_stockrecord, getattr, ret.
  destruct (StockRecord.net_stock_level sr >? 0); reflexivity.
Qed.

(** [Base.is_available_to_buy] returns the first component of whatever
    [self.is_purchase_permitted(1)] returns, and raises what it raises. *)
Lemma Base_is_available_to_buy_run
    (ipp : Z -> M (bool * string)) (self : Policy) :
  Base.is_available_to_buy ipp self
  = (result_map fst (fst (ipp 1 self)), snd (ipp 1 self)).
Proof.
  unfold Base.is_available_to_buy, bind, ret.
  destruct (ipp 1 self) as [[r | e] self']; reflexivity.
Qed.

Lemma StockRequired_is_available_to_buy_run
    (tr : Catalogue) (sr : StockRecord.t) :
  0 <= StockRecord.net_stock_level sr ->
  is_available_to_buy tr (StockRequired (Some sr))
  = (Returns (0 <? StockRecord.net_stock_level sr), StockRequired (Some sr)).
Proof.
  intros Hn. unfold is_available_to_buy.
  rewrite Base_is_available_to_buy_run, StockRequired_is_purchase_permitted_run.
  destruct (Z.eqb_spec (StockRecord.net_stock_level sr) 0) as [E | E].
  - rewrite E. reflexivity.
  - destruct (Z.gtb_spec 1 (StockRecord.net_stock_level sr)); [lia |].
    destruct (Z.ltb_spec 0 (StockRecord.net_stock_level sr)); [| lia].
    reflexivity.
Qed.

Lemma Delegate_is_available_to_buy_run
    (tr : Catalogue) (product : Product) (sr : StockRecord.t)
    (user : option User) :
  is_available_to_buy tr (DelegateToStockRecord (Some product) (Some sr) user)
  = (Returns (if track_stock (get_product_class product)
              then StockRecord.is_available_to_buy sr
              else true),
     DelegateToStockRecord (Some product) (Some sr) user).
Proof.
  unfold is_available_to_buy, DelegateToStockRecord.is_available_to_buy,
    bind, self_stockrecord, self_product, getattr, ret.
  destruct (track_stock (get_product_class product)); reflexivity.
Qed.

(** In any catalogue [Base] refuses with the catalogue's text for
    "Unavailable". *)
Lemma Base_is_purchase_permitted_run
    (tr : Catalogue) (quantity : Z) (self : Policy) :
  Base.is_purchase_permitted tr quantity self
  = (Returns (false, tr "Unavailable"), self).
Proof. reflexivity. Qed.

(** ** Read-only computations: the frame lemmas *)

Lemma read_only_repeatable {A : Type} (m : M A) :
  read_only m -> repeatable m.
Proof. intros H self. rewrite H. reflexivity. Qed.

Lemma read_only_ret {A : Type} (a : A) : read_only (ret a).
Proof. intros self. reflexivity. Qed.

Lemma read_only_raise {A : Type} (e : exn) : read_only (@raise A e).
Proof. intros self. reflexivity. Qed.

Lemma read_only_lift {A : Type} (r : result A) : read_only (lift r).
Proof. intros self. reflexivity. Qed.

Lemma read_only_bind {A B : Type} (m : M A) (k : A -> M B) :
  read_only m -> (forall a, read_only (k a)) -> read_only (bind m k).
Proof.
  intros Hm Hk self. unfold exec, bind.
  specialize (Hm self). unfold exec in Hm.
  destruct (m self) as [[a | e] self']; simpl in Hm; subst self'.
  - apply Hk.
  - reflexivity.
Qed.

Lemma read_only_getattr {O A : Type} (obj : option O) (attr : string)
    (field : O -> A) :
  read_only (getattr obj attr field).
Proof. destruct obj; intros self; reflexivity. Qed.

Lemma read_only_self_stockrecord : read_only self_stockrecord.
Proof. intros [ | | | ? | ? ? ?]; reflexivity. Qed.

Lemma read_only_self_product : read_only self_product.
Proof. intros [ | | | ? | ? ? ?]; reflexivity. Qed.

Lemma read_only_self_user : read_only self_user.
Proof. intros [ | | | ? | ? ? ?]; reflexivity. Qed.

Create HintDb frame.
#[local] Hint Resolve read_only_ret read_only_raise read_only_lift
  read_only_getattr read_only_self_stockrecord read_only_self_product
  read_only_self_user : frame.

(* Walks down a method body: binds, conditionals, matches, then leaves. *)
Ltac frame :=
  repeat match goal with
  | |- read_only (bind _ _) => apply read_only_bind; [| intros ?]
  | |- read_only (if ?b then _ else _) => destruct b
  | |- read_only (match ?x with _ => _ end) => destruct x
  | |- read_only _ => solve [auto with frame]
  end.

Lemma read_only_Base_is_purchase_permitted tr quantity :
  read_only (Base.is_purchase_permitted tr quantity).
Proof. unfold Base.is_purchase_permitted. frame. Qed.

Lemma read_only_Base_is_available_to_buy ipp :
  (forall quantity, read_only (ipp quantity)) ->
  read_only (Base.is_available_to_buy ipp).
Proof. intros H. unfold Base.is_available_to_buy. frame. Qed.

Lemma read_only_Available_is_purchase_permitted quantity :
  read_only (Available.is_purchase_permitted quantity).
Proof. unfold Available.is_purchase_permitted. frame. Qed.

Lemma read_only_StockRequired_is_purchase_permitted tr quantity :
  read_only (StockRequired.is_purchase_permitted tr quantity).
Proof. unfold StockRequired.is_purchase_permitted. frame. Qed.

Lemma read_only_StockRequired_code : read_only StockRequired.code.
Proof. unfold StockRequired.code. frame. Qed.

Lemma read_only_StockRequired_message tr :
  read_only (StockRequired.message tr).
Proof. unfold StockRequired.message. frame. Qed.

Lemma read_only_Delegate_is_available_to_buy :
  read_only DelegateToStockRecord.is_available_to_buy.
Proof. unfold DelegateToStockRecord.is_available_to_buy. frame. Qed.

Lemma read_only_Delegate_is_purchase_permitted quantity :
  read_only (DelegateToStockRecord.is_purchase_permitted quantity).
Proof. unfold DelegateToStockRecord.is_purchase_permitted. frame. Qed.

Lemma read_only_Delegate_code : read_only DelegateToStockRecord.code.
Proof. unfold DelegateToStockRecord.code. frame. Qed.

Lemma read_only_Delegate_message : read_only DelegateToStockRecord.message.
Proof. unfold DelegateToStockRecord.message. frame. Qed.

Lemma read_only_is_purchase_permitted tr quantity :
  read_only (is_purchase_permitted tr quantity).
Proof.
  intros self. destruct self; unfold exec, is_purchase_permitted;
    [ apply (read_only_Base_is_purchase_permitted tr quantity)
    | apply (read_only_Base_is_purchase_permitted tr quantity)
    | apply (read_only_Available_is_purchase_permitted quantity)
    | apply (read_only_StockRequired_is_purchase_permitted tr quantity)
    | apply (read_only_Delegate_is_purchase_permitted quantity) ].
Qed.

Lemma read_only_is_available_to_buy tr : read_only (is_available_to_buy tr).
Proof.
  pose proof (read_only_Base_is_available_to_buy
                (is_purchase_permitted tr)
                (read_only_is_purchase_permitted tr)) as HB.
  intros self. destruct self; unfold exec, is_available_to_buy;
    try apply HB.
  apply read_only_Delegate_is_available_to_buy.
Qed.

Lemma read_only_code : read_only code.
Proof.
  intros self. destruct self; unfold exec, code; try reflexivity.
  - apply read_only_StockRequired_code.
  - apply read_only_Delegate_code.
Qed.

Lemma read_only_message tr : read_only (message tr).
Proof.
  intros self. destruct self; unfold exec, message; try reflexivity.
  - apply (read_only_StockRequired_message tr).
  - apply read_only_Delegate_message.
Qed.

(** ** The stated properties *)

(** C1. A [StockRequired] policy whose stock record has a non-negative
    [net_stock_level] answers [is_purchase_permitted(quantity)] with
    (False, "No stock available") when the level is zero, with
    (False, "A maximum of N can be bought"), N the level, when the level is
    positive and the quantity exceeds it, and with (True, "") otherwise.
    The messages are those of the source language. *)
Theorem StockRequired_is_purchase_permitted_cases
    (sr : StockRecord.t) (quantity : Z) :
  0 <= StockRecord.net_stock_level sr ->
  (StockRecord.net_stock_level sr = 0 ->
   eval (is_purchase_permitted source_language quantity)
        (StockRequired (Some sr))
   = Returns (false, "No stock available"))
  /\ (0 < StockRecord.net_stock_level sr ->
      StockRecord.net_stock_level sr < quantity ->
      eval (is_purchase_permitted source_language quantity)
           (StockRequired (Some sr))
      = Returns (false,
                 ("A maximum of " ++ str_of_int (StockRecord.net_stock_level sr)
                  ++ " can be bought")%string))
  /\ (0 < StockRecord.net_stock_level sr ->
      quantity <= StockRecord.net_stock_level sr ->
      eval (is_purchase_permitted source_language quantity)
           (StockRequired (Some sr))
      = Returns (true, "")).
Proof.
  intros _. unfold eval.
  rewrite StockRequired_is_purchase_permitted_run. cbn [fst].
  unfold source_language. rewrite percent_maximum. cbn [result_map].
  destruct (Z.eqb_spec (StockRecord.net_stock_level sr) 0) as [E | E];
    destruct (Z.gtb_spec quantity (StockRecord.net_stock_level sr));
    repeat split; intros; first [reflexivity | lia].
Qed.

Lemma StockRequired_is_purchase_permitted_cases_witness :
  eval (is_purchase_permitted source_language 1)
       (StockRequired (Some (stock 0)))
  = Returns (false, "No stock available")
  /\ eval (is_purchase_permitted source_language 6)
          (StockRequired (Some (stock 5)))
     = Returns (false, "A maximum of 5 can be bought")
  /\ eval (is_purchase_permitted source_language 5)
          (StockRequired (Some (stock 5)))
     = Returns (true, "").
Proof.
  split; [| split].
  - apply (StockRequired_is_purchase_permitted_cases (stock 0) 1);
      simpl; lia.
  - apply (StockRequired_is_purchase_permitted_cases (stock 5) 6);
      simpl; lia.
  - apply (StockRequired_is_purchase_permitted_cases (stock 5) 5);
      simpl; lia.
Defined.

(** C2, as stated, fails for [DelegateToStockRecord]: with a stock record
    that refuses the purchase of a single item and a product whose class
    does not track stock, [is_purchase_permitted(1)] returns
    (False, "Unavailable") while [is_available_to_buy] is True. *)
Lemma delegate_available_though_purchase_refused :
  eval (is_purchase_permitted source_language 1) untracked_delegate
  = Returns (false, "Unavailable")
  /\ eval (is_available_to_buy source_language) untracked_delegate
     = Returns true
  /\ ~ (forall ok reason,
          eval (is_purchase_permitted source_language 1) untracked_delegate
          = Returns (ok, reason) ->
          eval (is_available_to_buy source_language) untracked_delegate
          = Returns ok).
Proof.
  split; [reflexivity | split; [reflexivity |]].
  intros H. specialize (H false "Unavailable" eq_refl). discriminate H.
Qed.

(** C2, amended. For every policy that takes [is_available_to_buy] from
    [Base] (Base, Unavailable, Available, StockRequired), in any catalogue
    and on every input on which [is_purchase_permitted(1)] returns,
    [is_available_to_buy] is the first component of what it returns. *)
Theorem inherited_is_available_to_buy_is_single_purchase
    (tr : Catalogue) (self : Policy) (ok : bool) (reason : string) :
  inherits_is_available_to_buy self = true ->
  eval (is_purchase_permitted tr 1) self = Returns (ok, reason) ->
  eval (is_available_to_buy tr) self = Returns ok.
Proof.
  intros Hcls Hipp. unfold eval in *.
  assert (is_available_to_buy tr self
          = Base.is_available_to_buy (is_purchase_permitted tr) self) as ->
    by (destruct self; [reflexivity .. | discriminate Hcls]).
  rewrite Base_is_available_to_buy_run. cbn [fst].
  rewrite Hipp. reflexivity.
Qed.

Lemma inherited_is_available_to_buy_is_single_purchase_witness :
  eval (is_available_to_buy source_language) (StockRequired (Some (stock 0)))
  = Returns false.
Proof.
  apply (inherited_is_available_to_buy_is_single_purchase
           source_language (StockRequired (Some (stock 0)))
           false "No stock available");
    reflexivity.
Defined.

(** C3. [Available.is_purchase_permitted(n)] returns (True, "") for every
    quantity n >= 1, whatever the catalogue. *)
Theorem Available_permits_every_positive_quantity
    (tr : Catalogue) (n : Z) :
  1 <= n ->
  eval (is_purchase_permitted tr n) Available = Returns (true, "").
Proof. intros _. reflexivity. Qed.

Lemma Available_permits_every_positive_quantity_witness :
  eval (is_purchase_permitted source_language 3) Available
  = Returns (true, "").
Proof.
  apply (Available_permits_every_positive_quantity source_language 3). lia.
Defined.

(** C4. For [Base] and [Unavailable], [is_purchase_permitted(quantity)]
    returns (False, "Unavailable") for every quantity (the message is that
    of the source language). *)
Theorem Base_and_Unavailable_refuse (quantity : Z) :
  eval (is_purchase_permitted source_language quantity) Base
  = Returns (false, "Unavailable")
  /\ eval (is_purchase_permitted source_language quantity) Unavailable
     = Returns (false, "Unavailable").
Proof. split; reflexivity. Qed.

(** C5. [DelegateToStockRecord.is_available_to_buy] is False when no stock
    record is attached, True when one is attached and the product's class
    does not track stock, and the stock record's own [is_available_to_buy]
    otherwise. *)
Theorem Delegate_is_available_to_buy_cases
    (tr : Catalogue) (user : option User) :
  (forall product,
     eval (is_available_to_buy tr) (DelegateToStockRecord product None user)
     = Returns false)
  /\ (forall product sr,
        track_stock (get_product_class product) = false ->
        eval (is_available_to_buy tr)
             (DelegateToStockRecord (Some product) (Some sr) user)
        = Returns true)
  /\ (forall product sr,
        track_stock (get_product_class product) = true ->
        eval (is_available_to_buy tr)
             (DelegateToStockRecord (Some product) (Some sr) user)
        = Returns (StockRecord.is_available_to_buy sr)).
Proof.
  repeat split; intros; unfold eval;
    try rewrite Delegate_is_available_to_buy_run; try rewrite H;
    reflexivity.
Qed.

Lemma Delegate_is_available_to_buy_cases_witness :
  eval (is_available_to_buy source_language)
       (DelegateToStockRecord (Some untracked_product) (Some refusing) None)
  = Returns true
  /\ eval (is_available_to_buy source_language)
          (DelegateToStockRecord (Some tracked_product) (Some (stock 2)) None)
     = Returns true
  /\ eval (is_available_to_buy source_language)
          (DelegateToStockRecord (Some tracked_product) (Some refusing) None)
     = Returns false.
Proof.
  split; [| split].
  - apply (Delegate_is_available_to_buy_cases source_language None).
    reflexivity.
  - apply (proj2 (proj2 (Delegate_is_available_to_buy_cases
                           source_language None))
             tracked_product (stock 2)).
    reflexivity.
  - apply (proj2 (proj2 (Delegate_is_available_to_buy_cases
                           source_language None))
             tracked_product refusing).
    reflexivity.
Defined.

(** C6. For a [StockRequired] policy whose stock record has a non-negative
    [net_stock_level], [code] is "instock" when the level is positive and
    "outofstock" when it is zero. *)
Theorem StockRequired_code_cases (sr : StockRecord.t) :
  0 <= StockRecord.net_stock_level sr ->
  (0 < StockRecord.net_stock_level sr ->
   eval code (StockRequired (Some sr)) = Returns "instock")
  /\ (StockRecord.net_stock_level sr = 0 ->
      eval code (StockRequired (Some sr)) = Returns "outofstock").
Proof.
  intros _. unfold eval. rewrite StockRequired_code_run. cbn [fst].
  destruct (Z.gtb_spec (StockRecord.net_stock_level sr) 0);
    split; intros; first [reflexivity | lia].
Qed.

Lemma StockRequired_code_cases_witness :
  eval code (StockRequired (Some (stock 5))) = Returns "instock"
  /\ eval code (StockRequired (Some (stock 0))) = Returns "outofstock".
Proof.
  split.
  - apply (StockRequired_code_cases (stock 5)); simpl; lia.
  - apply (StockRequired_code_cases (stock 0)); simpl; lia.
Defined.

(** C7. On a [StockRequired] or [DelegateToStockRecord] policy built
    without a stock record, [is_purchase_permitted(quantity)] raises the
    AttributeError of an attribute read on None, for every quantity and
    whatever the other attributes are. *)
Theorem missing_stockrecord_raises (tr : Catalogue) (quantity : Z) :
  eval (is_purchase_permitted tr quantity) (StockRequired None)
  = Raises (AttributeError "NoneType" "net_stock_level")
  /\ (forall product user,
        eval (is_purchase_permitted tr quantity)
             (DelegateToStockRecord product None user)
        = Raises (AttributeError "NoneType" "is_purchase_permitted")).
Proof. split; reflexivity. Qed.

(** C8. [is_purchase_permitted], [is_available_to_buy], [code] and
    [message] are read-only on every policy: the receiver, with its
    attributes and the stock record it references ([net_stock_level]
    included), is the same after the call, whether it returned or raised,
    and a second call on the state the first one left gives the same
    result. *)
Theorem policy_operations_read_only (tr : Catalogue) (quantity : Z) :
  (read_only (is_purchase_permitted tr quantity)
   /\ repeatable (is_purchase_permitted tr quantity))
  /\ (read_only (is_available_to_buy tr)
      /\ repeatable (is_available_to_buy tr))
  /\ (read_only code /\ repeatable code)
  /\ (read_only (message tr) /\ repeatable (message tr)).
Proof.
  pose proof (read_only_is_purchase_permitted tr quantity).
  pose proof (read_only_is_available_to_buy tr).
  pose proof read_only_code.
  pose proof (read_only_message tr).
  repeat split; auto using read_only_repeatable.
Qed.

(** C9. The quantity is not validated: for q <= 0,
    [Available.is_purchase_permitted(q)] returns (True, ""), and so does
    [StockRequired.is_purchase_permitted(q)] when the stock record's
    [net_stock_level] is positive. *)
Theorem quantity_not_validated (tr : Catalogue) (q : Z) :
  q <= 0 ->
  eval (is_purchase_permitted tr q) Available = Returns (true, "")
  /\ (forall sr,
        0 < StockRecord.net_stock_level sr ->
        eval (is_purchase_permitted tr q) (StockRequired (Some sr))
        = Returns (true, "")).
Proof.
  intros Hq. split; [reflexivity |].
  intros sr Hn. unfold eval.
  rewrite StockRequired_is_purchase_permitted_run. cbn [fst].
  destruct (Z.eqb_spec (StockRecord.net_stock_level sr) 0); [lia |].
  destruct (Z.gtb_spec q (StockRecord.net_stock_level sr)); [lia |].
  reflexivity.
Qed.

Lemma quantity_not_validated_witness :
  eval (is_purchase_permitted source_language (-2)) Available
  = Returns (true, "")
  /\ eval (is_purchase_permitted source_language 0)
          (StockRequired (Some (stock 4)))
     = Returns (true, "").
Proof.
  split.
  - apply (quantity_not_validated source_language (-2)). lia.
  - apply (quantity_not_validated source_language 0); simpl; lia.
Defined.

(** C10. For a [StockRequired] policy whose stock record has a
    non-negative [net_stock_level], [is_available_to_buy] is True exactly
    when [code] is "instock", which is exactly when the level is positive;
    and it is False exactly when [code] is "outofstock". *)
Theorem StockRequired_available_iff_instock
    (tr : Catalogue) (sr : StockRecord.t) :
  0 <= StockRecord.net_stock_level sr ->
  (eval (is_available_to_buy tr) (StockRequired (Some sr)) = Returns true
   <-> eval code (StockRequired (Some sr)) = Returns "instock")
  /\ (eval code (StockRequired (Some sr)) = Returns "instock"
      <-> 0 < StockRecord.net_stock_level sr)
  /\ (eval (is_available_to_buy tr) (StockRequired (Some sr)) = Returns false
      <-> eval code (StockRequired (Some sr)) = Returns "outofstock").
Proof.
  intros Hn. unfold eval.
  rewrite (StockRequired_is_available_to_buy_run tr sr Hn).
  rewrite StockRequired_code_run. cbn [fst].
  unfold StockRequired.CODE_IN_STOCK, StockRequired.CODE_OUT_OF_STOCK.
  destruct (Z.gtb_spec (StockRecord.net_stock_level sr) 0);
    destruct (Z.ltb_spec 0 (StockRecord.net_stock_level sr)); try lia;
    repeat split; intros; first [reflexivity | lia | discriminate].
Qed.

Lemma StockRequired_available_iff_instock_witness :
  eval (is_available_to_buy source_language) (StockRequired (Some (stock 5)))
  = Returns true
  /\ eval (is_available_to_buy source_language)
          (StockRequired (Some (stock 0)))
     = Returns false.
Proof.
  split.
  - apply (proj1 (StockRequired_available_iff_instock
                    source_language (stock 5) ltac:(simpl; lia))).
    reflexivity.
  - apply (proj2 (proj2 (StockRequired_available_iff_instock
                           source_language (stock 0) ltac:(simpl; lia)))).
    reflexivity.
Defined.

(** ** Further properties of the code *)

(** *** Auxiliary facts on strings and formats *)




(** Text without [%] goes through a dict operand unchanged... *)
Lemma scan_plain_mapping (d : list (string * Z)) (used : bool) (s : string) :
  has_percent s = false -> scan InText (Mapping d) used s = Returns s.
Proof.
  induction s as [| c s IH]; simpl; intros H.
  - destruct used; reflexivity.
  - apply orb_false_iff in H as [Hc Hs]. rewrite Hc, (IH Hs). reflexivity.
Qed.

(** ... and leaves a single positional operand unconverted. *)
Lemma scan_plain_single (v : Z) (s : string) :
  has_percent s = false ->
  scan InText (Single v) false s
  = Raises (TypeError "not all arguments converted during string formatting").
Proof.
  induction s as [| c s IH]; simpl; intros H.
  - reflexivity.
  - apply orb_false_iff in H as [Hc Hs]. rewrite Hc, (IH Hs). reflexivity.
Qed.

(** What [message] does on a [StockRequired] instance with a stock record,
    in any catalogue. *)
Lemma StockRequired_message_run (tr : Catalogue) (sr : StockRecord.t) :
  message tr (StockRequired (Some sr))
  = (if StockRecord.net_stock_level sr >? 0 then
       percent (tr "In stock (%d available)")
               (Single (StockRecord.net_stock_level sr))
     else Returns (tr "Not available"),
     StockRequired (Some sr)).
Proof.
  unfold message, StockRequired.message, bind, self_stockrecord, getattr,
    ret, lift.
  destruct (StockRecord.net_stock_level sr >? 0); reflexivity.
Qed.

(** With no translation active, [is_purchase_permitted] on a stock record
    always returns, whatever the integers are. *)
Lemma StockRequired_is_purchase_permitted_source
    (quantity : Z) (sr : StockRecord.t) :
  eval (is_purchase_permitted source_language quantity)
       (StockRequired (Some sr))
  = if StockRecord.net_stock_level sr =? 0 then
      Returns (false, "No stock available")
    else if quantity >? StockRecord.net_stock_level sr then
      Returns (false,
               ("A maximum of " ++ str_of_int (StockRecord.net_stock_level sr)
                ++ " can be bought")%string)
    else Returns (true, "").
Proof.
  unfold eval. rewrite StockRequired_is_purchase_permitted_run. cbn [fst].
  unfold source_language. rewrite percent_maximum. reflexivity.
Qed.

Lemma StockRequired_is_available_to_buy_source (sr : StockRecord.t) :
  eval (is_available_to_buy source_language) (StockRequired (Some sr))
  = Returns (0 <? StockRecord.net_stock_level sr).
Proof.
  unfold eval, is_available_to_buy.
  rewrite Base_is_available_to_buy_run. cbn [fst].
  change (fst (is_purchase_permitted source_language 1
                 (StockRequired (Some sr))))
    with (eval (is_purchase_permitted source_language 1)
               (StockRequired (Some sr))).
  rewrite StockRequired_is_purchase_permitted_source.
  destruct (Z.eqb_spec (StockRecord.net_stock_level sr) 0) as [E | E].
  - rewrite E. reflexivity.
  - destruct (Z.gtb_spec 1 (StockRecord.net_stock_level sr));
      destruct (Z.ltb_spec 0 (StockRecord.net_stock_level sr));
      first [reflexivity | lia].
Qed.

(** *** [StockRequired.message] *)

(** X1. With no translation active, [StockRequired.message] is
    "In stock (N available)", N the level, when [net_stock_level] is
    positive, and "Not available" when it is zero or negative. *)
Theorem StockRequired_message_cases (sr : StockRecord.t) :
  (0 < StockRecord.net_stock_level sr ->
   eval (message source_language) (StockRequired (Some sr))
   = Returns ("In stock (" ++ str_of_int (StockRecord.net_stock_level sr)
              ++ " available)")%string)
  /\ (StockRecord.net_stock_level sr <= 0 ->
      eval (message source_language) (StockRequired (Some sr))
      = Returns "Not available").
Proof.
  unfold eval. rewrite StockRequired_message_run. cbn [fst].
  unfold source_language. rewrite percent_in_stock.
  destruct (Z.gtb_spec (StockRecord.net_stock_level sr) 0);
    split; intros; first [reflexivity | lia].
Qed.

Lemma StockRequired_message_cases_witness :
  eval (message source_language) (StockRequired (Some (stock 12)))
  = Returns "In stock (12 available)"
  /\ eval (message source_language) (StockRequired (Some (stock (-3))))
     = Returns "Not available".
Proof.
  split.
  - apply (StockRequired_message_cases (stock 12)). simpl; lia.
  - apply (StockRequired_message_cases (stock (-3))). simpl; lia.
Defined.

(** X2. On a [StockRequired] policy with a stock record, whatever integer
    its level is, [code] and [message] tell the same story: the code is
    "outofstock" exactly when the message is "Not available", and "instock"
    exactly when the message is the in-stock text naming the level. *)
Theorem StockRequired_code_matches_message (sr : StockRecord.t) :
  (eval code (StockRequired (Some sr)) = Returns "outofstock"
   <-> eval (message source_language) (StockRequired (Some sr))
       = Returns "Not available")
  /\ (eval code (StockRequired (Some sr)) = Returns "instock"
      <-> eval (message source_language) (StockRequired (Some sr))
          = Returns ("In stock ("
                     ++ str_of_int (StockRecord.net_stock_level sr)
                     ++ " available)")%string).
Proof.
  unfold eval. rewrite StockRequired_message_run, StockRequired_code_run.
  cbn [fst]. unfold source_language. rewrite percent_in_stock.
  unfold StockRequired.CODE_IN_STOCK, StockRequired.CODE_OUT_OF_STOCK.
  destruct (StockRecord.net_stock_level sr >? 0); simpl;
    repeat split; intros H; first [reflexivity | discriminate H].
Qed.

Lemma StockRequired_code_matches_message_witness :
  eval code (StockRequired (Some (stock 0))) = Returns "outofstock"
  /\ eval (message source_language) (StockRequired (Some (stock 7)))
     = Returns "In stock (7 available)".
Proof.
  split.
  - apply (proj1 (StockRequired_code_matches_message (stock 0))).
    reflexivity.
  - apply (proj2 (StockRequired_code_matches_message (stock 7))).
    reflexivity.
Defined.



(** *** [StockRequired.is_purchase_permitted] on arbitrary integers *)

(** X4. In any catalogue, a [StockRequired] policy with a stock record
    permits a quantity exactly when the level is not zero and the quantity
    does not exceed it. *)
Theorem StockRequired_permits_iff
    (tr : Catalogue) (sr : StockRecord.t) (q : Z) :
  (exists reason,
     eval (is_purchase_permitted tr q) (StockRequired (Some sr))
     = Returns (true, reason))
  <-> (StockRecord.net_stock_level sr <> 0
       /\ q <= StockRecord.net_stock_level sr).
Proof.
  unfold eval. rewrite StockRequired_is_purchase_permitted_run. cbn [fst].
  destruct (Z.eqb_spec (StockRecord.net_stock_level sr) 0) as [E | E];
    [| destruct (Z.gtb_spec q (StockRecord.net_stock_level sr)) as [G | G]].
  - split; [intros [reason H]; discriminate H | intros [H _]; lia].
  - split; [| intros [_ H]; lia].
    intros [reason H]. destruct (percent _ _); discriminate H.
  - split; [intros _; split; lia | intros _; exists ""; reflexivity].
Qed.

Lemma StockRequired_permits_iff_witness :
  exists reason,
    eval (is_purchase_permitted source_language 3)
         (StockRequired (Some (stock 4)))
    = Returns (true, reason).
Proof.
  apply (proj2 (StockRequired_permits_iff source_language (stock 4) 3)).
  simpl. lia.
Defined.

(** X5. For the policies that are not delegates, in any catalogue, what is
    permitted stays permitted for every smaller quantity. *)
Theorem permission_downward_closed
    (tr : Catalogue) (self : Policy) (q q' : Z) (reason : string) :
  inherits_is_available_to_buy self = true ->
  q' <= q ->
  eval (is_purchase_permitted tr q) self = Returns (true, reason) ->
  eval (is_purchase_permitted tr q') self = Returns (true, "").
Proof.
  intros Hcls Hle Hq.
  destruct self as [| | | [sr |] | product stockrecord user];
    try discriminate Hcls; try discriminate Hq; try reflexivity.
  assert (StockRecord.net_stock_level sr <> 0
          /\ q <= StockRecord.net_stock_level sr) as [Hn Hqn]
    by (apply (StockRequired_permits_iff tr sr q); now exists reason).
  unfold eval. rewrite StockRequired_is_purchase_permitted_run. cbn [fst].
  destruct (Z.eqb_spec (StockRecord.net_stock_level sr) 0); [lia |].
  destruct (Z.gtb_spec q' (StockRecord.net_stock_level sr)); [lia |].
  reflexivity.
Qed.

Lemma permission_downward_closed_witness :
  eval (is_purchase_permitted source_language 2)
       (StockRequired (Some (stock 5)))
  = Returns (true, "").
Proof.
  apply (permission_downward_closed source_language
           (StockRequired (Some (stock 5))) 5 2 "");
    [reflexivity | lia | reflexivity].
Defined.

(** X6. With no translation active, a policy that is not a delegate and
    has the stock record it needs always returns, and the reason is empty
    exactly when the purchase is permitted. *)
Theorem reason_empty_iff_permitted (self : Policy) (q : Z) :
  inherits_is_available_to_buy self = true ->
  self <> StockRequired None ->
  exists ok reason,
    eval (is_purchase_permitted source_language q) self
    = Returns (ok, reason)
    /\ (ok = true <-> reason = "").
Proof.
  intros Hcls Hsr.
  destruct self as [| | | [sr |] | product stockrecord user];
    try discriminate Hcls; try congruence.
  - exists false, "Unavailable". split; [reflexivity | split; discriminate].
  - exists false, "Unavailable". split; [reflexivity | split; discriminate].
  - exists true, "". split; [reflexivity | split; reflexivity].
  - rewrite StockRequired_is_purchase_permitted_source.
    destruct (StockRecord.net_stock_level sr =? 0);
      [| destruct (q >? StockRecord.net_stock_level sr)];
      eexists; eexists; (split; [reflexivity |]);
      split; simpl; first [discriminate | reflexivity].
Qed.

Lemma reason_empty_iff_permitted_witness :
  exists ok reason,
    eval (is_purchase_permitted source_language 9)
         (StockRequired (Some (stock 5)))
    = Returns (ok, reason)
    /\ (ok = true <-> reason = "").
Proof.
  apply (reason_empty_iff_permitted (StockRequired (Some (stock 5))) 9);
    [reflexivity | discriminate].
Defined.

(** X7. A negative level (more allocated than in stock) is treated as out
    of stock by [is_available_to_buy], [code] and [message], while
    [is_purchase_permitted] names the negative level as the maximum for any
    quantity above it and permits the quantities at or below it. *)
Theorem StockRequired_negative_level (sr : StockRecord.t) (q : Z) :
  StockRecord.net_stock_level sr < 0 ->
  eval (is_available_to_buy source_language) (StockRequired (Some sr))
  = Returns false
  /\ eval code (StockRequired (Some sr)) = Returns "outofstock"
  /\ eval (message source_language) (StockRequired (Some sr))
     = Returns "Not available"
  /\ (StockRecord.net_stock_level sr < q ->
      eval (is_purchase_permitted source_language q)
           (StockRequired (Some sr))
      = Returns (false,
                 ("A maximum of "
                  ++ str_of_int (StockRecord.net_stock_level sr)
                  ++ " can be bought")%string))
  /\ (q <= StockRecord.net_stock_level sr ->
      eval (is_purchase_permitted source_language q)
           (StockRequired (Some sr))
      = Returns (true, "")).
Proof.
  intros Hn.
  rewrite StockRequired_is_available_to_buy_source,
    StockRequired_is_purchase_permitted_source.
  rewrite (proj2 (StockRequired_message_cases sr)) by lia.
  unfold eval at 1. rewrite StockRequired_code_run. cbn [fst].
  destruct (Z.ltb_spec 0 (StockRecord.net_stock_level sr)); [lia |].
  destruct (Z.gtb_spec (StockRecord.net_stock_level sr) 0); [lia |].
  destruct (Z.eqb_spec (StockRecord.net_stock_level sr) 0); [lia |].
  destruct (Z.gtb_spec q (StockRecord.net_stock_level sr));
    repeat split; intros; first [reflexivity | lia].
Qed.

Lemma StockRequired_negative_level_witness :
  eval (is_available_to_buy source_language)
       (StockRequired (Some (stock (-2))))
  = Returns false
  /\ eval (is_purchase_permitted source_language 1)
          (StockRequired (Some (stock (-2))))
     = Returns (false, "A maximum of -2 can be bought")
  /\ eval (is_purchase_permitted source_language (-2))
          (StockRequired (Some (stock (-2))))
     = Returns (true, "").
Proof.
  split; [| split].
  - apply (StockRequired_negative_level (stock (-2)) 1). simpl; lia.
  - apply (StockRequired_negative_level (stock (-2)) 1); simpl; lia.
  - apply (StockRequired_negative_level (stock (-2)) (-2)); simpl; lia.
Defined.

(** *** Availability, codes and errors across the classes *)

(** X8. With no translation active, on every policy that is not a
    delegate, whenever both [is_available_to_buy] and [code] return, the
    product is available exactly when the code is "available" or
    "instock". *)
Theorem code_tells_availability (self : Policy) (b : bool) (c : string) :
  inherits_is_available_to_buy self = true ->
  eval (is_available_to_buy source_language) self = Returns b ->
  eval code self = Returns c ->
  (b = true <-> c = "available" \/ c = "instock").
Proof.
  intros Hcls Hb Hc.
  destruct self as [| | | [sr |] | product stockrecord user];
    try discriminate Hcls; try discriminate Hb.
  - injection Hb as <-. injection Hc as <-.
    split; [discriminate | intros [K | K]; discriminate K].
  - injection Hb as <-. injection Hc as <-.
    split; [discriminate | intros [K | K]; discriminate K].
  - injection Hb as <-. injection Hc as <-.
    split; [now left | reflexivity].
  - rewrite StockRequired_is_available_to_buy_source in Hb.
    unfold eval in Hc. rewrite StockRequired_code_run in Hc. cbn [fst] in Hc.
    injection Hb as <-. injection Hc as <-.
    destruct (Z.gtb_spec (StockRecord.net_stock_level sr) 0);
      destruct (Z.ltb_spec 0 (StockRecord.net_stock_level sr)); try lia.
    + split; [now right | reflexivity].
    + split; [discriminate | intros [K | K]; discriminate K].
Qed.

Lemma code_tells_availability_witness :
  true = true <-> "instock" = "available" \/ "instock" = "instock".
Proof.
  apply (code_tells_availability (StockRequired (Some (stock 3)))
           true "instock");
    reflexivity.
Defined.

(** X9. In any catalogue, on every policy that is not a delegate,
    [is_available_to_buy] raises whatever [is_purchase_permitted(1)]
    raises; in particular it raises the AttributeError of the missing
    stock record on [StockRequired()]. *)
Theorem inherited_is_available_to_buy_raises
    (tr : Catalogue) (self : Policy) (e : exn) :
  inherits_is_available_to_buy self = true ->
  eval (is_purchase_permitted tr 1) self = Raises e ->
  eval (is_available_to_buy tr) self = Raises e.
Proof.
  intros Hcls Hipp. unfold eval in *.
  assert (is_available_to_buy tr self
          = Base.is_available_to_buy (is_purchase_permitted tr) self) as ->
    by (destruct self; [reflexivity .. | discriminate Hcls]).
  rewrite Base_is_available_to_buy_run. cbn [fst].
  rewrite Hipp. reflexivity.
Qed.

Lemma inherited_is_available_to_buy_raises_witness :
  eval (is_available_to_buy source_language) (StockRequired None)
  = Raises (AttributeError "NoneType" "net_stock_level").
Proof.
  apply (inherited_is_available_to_buy_raises
           source_language (StockRequired None));
    reflexivity.
Defined.

(** X10. On [StockRequired()], built without a stock record, [code] and
    [message] raise the AttributeError of the read of [net_stock_level] on
    None, while [lead_time] and [dispatch_date], inherited from [Base],
    still return None. *)
Theorem StockRequired_without_stockrecord (tr : Catalogue) :
  eval code (StockRequired None)
  = Raises (AttributeError "NoneType" "net_stock_level")
  /\ eval (message tr) (StockRequired None)
     = Raises (AttributeError "NoneType" "net_stock_level")
  /\ eval lead_time (StockRequired None) = Returns None
  /\ eval dispatch_date (StockRequired None) = Returns None.
Proof. repeat split. Qed.

(** X11. On a [DelegateToStockRecord] built without a stock record,
    [code], [message], [lead_time] and [dispatch_date] each raise the
    AttributeError of the stock record attribute they read on None:
    [availability_code], [availability], [lead_time], [dispatch_date]. *)
Theorem Delegate_without_stockrecord_raises
    (tr : Catalogue) (product : option Product) (user : option User) :
  eval code (DelegateToStockRecord product None user)
  = Raises (AttributeError "NoneType" "availability_code")
  /\ eval (message tr) (DelegateToStockRecord product None user)
     = Raises (AttributeError "NoneType" "availability")
  /\ eval lead_time (DelegateToStockRecord product None user)
     = Raises (AttributeError "NoneType" "lead_time")
  /\ eval dispatch_date (DelegateToStockRecord product None user)
     = Raises (AttributeError "NoneType" "dispatch_date").
Proof. repeat split. Qed.

(** X12. On a [DelegateToStockRecord] with a stock record, in any
    catalogue, [is_purchase_permitted(quantity)] returns or raises exactly
    what the stock record's [is_purchase_permitted(user, quantity, product)]
    does, and [code], [message], [lead_time] and [dispatch_date] return the
    stock record's [availability_code], [availability], [lead_time] and
    [dispatch_date]. *)
Theorem Delegate_forwards
    (tr : Catalogue) (product : option Product) (sr : StockRecord.t)
    (user : option User) (quantity : Z) :
  eval (is_purchase_permitted tr quantity)
       (DelegateToStockRecord product (Some sr) user)
  = StockRecord.is_purchase_permitted sr user quantity product
  /\ eval code (DelegateToStockRecord product (Some sr) user)
     = Returns (StockRecord.availability_code sr)
  /\ eval (message tr) (DelegateToStockRecord product (Some sr) user)
     = Returns (StockRecord.availability sr)
  /\ eval lead_time (DelegateToStockRecord product (Some sr) user)
     = Returns (StockRecord.lead_time sr)
  /\ eval dispatch_date (DelegateToStockRecord product (Some sr) user)
     = Returns (StockRecord.dispatch_date sr).
Proof. repeat split. Qed.


(** X14. [DelegateToStockRecord.is_available_to_buy] looks at nothing of
    the stock record but its [is_available_to_buy], and not at the user:
    two delegates for the same product whose stock records agree on that
    attribute give the same answer. *)
Theorem Delegate_available_ignores_purchase_rules
    (tr : Catalogue) (product : option Product) (sr sr' : StockRecord.t)
    (user user' : option User) :
  StockRecord.is_available_to_buy sr = StockRecord.is_available_to_buy sr' ->
  eval (is_available_to_buy tr) (DelegateToStockRecord product (Some sr) user)
  = eval (is_available_to_buy tr)
         (DelegateToStockRecord product (Some sr') user').
Proof.
  intros H. destruct product as [p |]; [| reflexivity].
  unfold eval. rewrite !Delegate_is_available_to_buy_run. cbn [fst].
  rewrite H. reflexivity.
Qed.

Lemma Delegate_available_ignores_purchase_rules_witness :
  eval (is_available_to_buy source_language)
       (DelegateToStockRecord (Some tracked_product) (Some refusing) None)
  = eval (is_available_to_buy source_language)
         (DelegateToStockRecord (Some tracked_product) (Some (stock 0))
                                (Some {| user_id := 7 |})).
Proof.
  apply (Delegate_available_ignores_purchase_rules source_language
           (Some tracked_product) refusing (stock 0)).
  reflexivity.
Defined.

(** X15. A [StockRequired] policy reads nothing of its stock record but
    [net_stock_level]: in any catalogue, two stock records with the same
    level give the same [is_purchase_permitted], [is_available_to_buy],
    [code] and [message]. *)
Theorem StockRequired_reads_only_the_level
    (tr : Catalogue) (sr sr' : StockRecord.t) (quantity : Z) :
  StockRecord.net_stock_level sr = StockRecord.net_stock_level sr' ->
  eval (is_purchase_permitted tr quantity) (StockRequired (Some sr))
  = eval (is_purchase_permitted tr quantity) (StockRequired (Some sr'))
  /\ eval (is_available_to_buy tr) (StockRequired (Some sr))
     = eval (is_available_to_buy tr) (StockRequired (Some sr'))
  /\ eval code (StockRequired (Some sr))
     = eval code (StockRequired (Some sr'))
  /\ eval (message tr) (StockRequired (Some sr))
     = eval (message tr) (StockRequired (Some sr')).
Proof.
  intros H. unfold eval, is_available_to_buy.
  rewrite !Base_is_available_to_buy_run,
    !StockRequired_is_purchase_permitted_run, !StockRequired_code_run,
    !StockRequired_message_run.
  cbn [fst]. rewrite H. repeat split.
Qed.

Lemma StockRequired_reads_only_the_level_witness :
  eval (message source_language) (StockRequired (Some refusing))
  = eval (message source_language) (StockRequired (Some (stock 0))).
Proof.
  apply (StockRequired_reads_only_the_level source_language
           refusing (stock 0) 1).
  reflexivity.
Defined.

(** *** Translations that drop the placeholder *)

(** X16. [is_purchase_permitted] formats the over-stock reason with a dict:
    a translation of "A maximum of %(max)d can be bought" that contains no
    [%] is returned as it is, and the refusal stands. *)
Theorem maximum_reason_without_placeholder
    (tr : Catalogue) (sr : StockRecord.t) (quantity : Z) :
  has_percent (tr "A maximum of %(max)d can be bought") = false ->
  StockRecord.net_stock_level sr <> 0 ->
  StockRecord.net_stock_level sr < quantity ->
  eval (is_purchase_permitted tr quantity) (StockRequired (Some sr))
  = Returns (false, tr "A maximum of %(max)d can be bought").
Proof.
  intros Hplain Hn Hq. unfold eval.
  rewrite StockRequired_is_purchase_permitted_run. cbn [fst].
  destruct (Z.eqb_spec (StockRecord.net_stock_level sr) 0); [lia |].
  destruct (Z.gtb_spec quantity (StockRecord.net_stock_level sr)); [| lia].
  unfold percent. rewrite (scan_plain_mapping _ _ _ Hplain). reflexivity.
Qed.

Lemma maximum_reason_without_placeholder_witness :
  eval (is_purchase_permitted terse 6) (StockRequired (Some (stock 5)))
  = Returns (false, "n/a").
Proof.
  apply (maximum_reason_without_placeholder terse (stock 5) 6);
    [reflexivity | simpl; lia | simpl; lia].
Defined.

(** X17. [message] formats the in-stock text with the bare level: with a
    translation of "In stock (%d available)" that contains no [%], reading
    [message] of a policy in stock raises the TypeError of an argument
    left unconverted. *)
Theorem in_stock_message_without_placeholder
    (tr : Catalogue) (sr : StockRecord.t) :
  has_percent (tr "In stock (%d available)") = false ->
  0 < StockRecord.net_stock_level sr ->
  eval (message tr) (StockRequired (Some sr))
  = Raises (TypeError "not all arguments converted during string formatting").
Proof.
  intros Hplain Hn. unfold eval.
  rewrite StockRequired_message_run. cbn [fst].
  destruct (Z.gtb_spec (StockRecord.net_stock_level sr) 0); [| lia].
  unfold percent. apply (scan_plain_single _ _ Hplain).
Qed.

Lemma in_stock_message_without_placeholder_witness :
  eval (message terse) (StockRequired (Some (stock 5)))
  = Raises (TypeError "not all arguments converted during string formatting").
Proof.
  apply (in_stock_message_without_placeholder terse (stock 5));
    [reflexivity | simpl; lia].
Defined.
